(** * pinata-upload.py: the release upload script of cactus-client

    The script is a straight line of effects: two environment lookups,
    the manifest read, four [open] calls, one print, one HTTP POST, the
    status line and the print of the decoded response.  It is embedded
    here as a computation in a small exception-and-trace monad, run
    against an explicit world (environment, file system, HTTP peer).

    The Python standard library and [requests] are not part of the
    repository: the JSON decoder ([json.load], [Response.json]) and the
    [repr] of decoded values are taken as parameters of the development. *)

From Stdlib Require Import String ZArith List DecimalString.
From Stdlib Require Import Floats.SpecFloat.
From stdpp Require Import base option gmap strings.
Import ListNotations.

Set Warnings "-register-all".

Local Open Scope string_scope.
Local Open Scope list_scope.

(** ** Python values produced by the [json] module *)

Inductive json : Type :=
| JNull
| JBool (b : bool)
| JInt (n : Z)
| JFloat (x : spec_float)
| JStr (s : string)
| JArr (items : list json)
| JObj (members : list (string * json)).

(** A decoded object is a [dict], whose keys are distinct; [d[k]] finds
    the entry stored under [k]. *)
Fixpoint dict_get (k : string) (d : list (string * json)) : option json :=
  match d with
  | [] => None
  | (k', v) :: rest => if String.eqb k k' then Some v else dict_get k rest
  end.

(** ** Exceptions the script can end with *)

Inductive exn : Type :=
| KeyError (key : string)
| TypeError
| FileNotFoundError (path : string)
| UnicodeDecodeError (path : string)
| JSONDecodeError
| RequestException (detail : string).

(** ** The world the script runs in *)

(** What [open(path)] followed by a text-mode read gives. A path absent
    from the file system makes [open] raise. *)
Inductive file_content : Type :=
| Readable (text : string)
| Undecodable.

(** An open text-mode file object. *)
Record handle : Type := mkHandle {
  h_path : string;
  h_content : file_content
}.

(** The inner tuple of one entry of [files]:
    (part name, file object, content type). *)
Record upload_item : Type := mkItem {
  part_name : string;
  part_file : handle;
  part_type : string
}.

Record request : Type := mkRequest {
  req_method : string;
  req_url : string;
  req_headers : list (string * string);
  req_files : list (string * upload_item)
}.

Record response : Type := mkResponse {
  status_code : Z;
  body : string
}.

Record world : Type := mkWorld {
  w_env : gmap string string;
  w_fs : gmap string file_content;
  w_http : request -> exn + response
}.

(** Observable effects, in program order. *)
Inductive event : Type :=
| EvOpen (path : string)
| EvRead (path : string)
| EvPrint (line : string)
| EvPost (req : request).

(** ** The monad: exceptions over an event log *)

Definition M (A : Type) : Type := list event -> list event * (exn + A).

Definition ret {A} (a : A) : M A := fun t => (t, inr a).

Definition raise {A} (e : exn) : M A := fun t => (t, inl e).

Definition bind {A B} (m : M A) (k : A -> M B) : M B :=
  fun t =>
    match m t with
    | (t', inl e) => (t', inl e)
    | (t', inr a) => k a t'
    end.

Definition emit (e : event) : M unit := fun t => (t ++ [e], inr tt).

Declare Scope py_scope.
Delimit Scope py_scope with py.
Notation "x <- m ;; k" := (bind m (fun x => k))
  (at level 100, m at next level, k at level 200, right associativity) : py_scope.
Notation "m ;; k" := (bind m (fun _ => k))
  (at level 100, k at level 200, right associativity) : py_scope.
Local Open Scope py_scope.

(** [str(n)] for an [int]. *)
Definition str_int (n : Z) : string := NilZero.string_of_int (Z.to_int n).

Example str_int_500 : str_int 500 = "500".
Proof. reflexivity. Qed.

(** ** Primitives used by the script *)

(** [os.environ[k]] *)
Definition environ_get (w : world) (k : string) : M string :=
  match w_env w !! k with
  | Some v => ret v
  | None => raise (KeyError k)
  end.

(** [open(path)]: text mode, read only. *)
Definition py_open (w : world) (path : string) : M handle :=
  match w_fs w !! path with
  | Some c => emit (EvOpen path) ;; ret (mkHandle path c)
  | None => raise (FileNotFoundError path)
  end.

(** [v[k]] on a decoded value: only a [dict] can be indexed by a string. *)
Definition subscript (v : json) (k : string) : M json :=
  match v with
  | JObj d =>
      match dict_get k d with
      | Some x => ret x
      | None => raise (KeyError k)
      end
  | _ => raise TypeError
  end.

(** [print(line)] *)
Definition print (line : string) : M unit := emit (EvPrint line).

(** [requests.post(url, headers=..., files=...)]: the request goes out,
    then the peer answers or the transport raises. *)
Definition requests_post (w : world) (url : string)
    (headers : list (string * string))
    (files : list (string * upload_item)) : M response :=
  let req := mkRequest "POST" url headers files in
  emit (EvPost req) ;;
  match w_http w req with
  | inl e => raise e
  | inr r => ret r
  end.

Section Script.

(** [json.loads]: [None] when the text is not a JSON document. *)
Variable json_loads : string -> option json.

(** [repr] of a decoded value. *)
Variable py_repr : json -> string.

(** [str(v)], which is also what [f"{v}"] and [print(v)] render:
    a [str] is rendered as itself, every other value by its [repr]. *)
Definition py_str (v : json) : string :=
  match v with
  | JStr s => s
  | _ => py_repr v
  end.

(** [json.load(fp)]: read the whole file, then decode. *)
Definition json_load (fp : handle) : M json :=
  emit (EvRead (h_path fp)) ;;
  match h_content fp with
  | Readable text =>
      match json_loads text with
      | Some v => ret v
      | None => raise JSONDecodeError
      end
  | Undecodable => raise (UnicodeDecodeError (h_path fp))
  end.

(** [r.json()] *)
Definition response_json (r : response) : M json :=
  match json_loads (body r) with
  | Some v => ret v
  | None => raise JSONDecodeError
  end.

(** Lines 9-14: the [files] list. Each entry formats its part name and
    then opens its source file, entries in order. *)
Definition build_files (w : world) (VERSION : json)
    : M (list (string * upload_item)) :=
  f1 <- py_open w "dist/cactus.js" ;;
  f2 <- py_open w "dist/cactus.js.map" ;;
  f3 <- py_open w "dist/style.css" ;;
  f4 <- py_open w "dist/style.js.map" ;;
  ret [ ("file", mkItem (py_str VERSION ++ "/cactus.js")     f1 "text/javascript");
        ("file", mkItem (py_str VERSION ++ "/cactus.js.map") f2 "application/json");
        ("file", mkItem (py_str VERSION ++ "/style.css")     f3 "text/css");
        ("file", mkItem (py_str VERSION ++ "/style.css.map") f4 "application/json") ].

(** Lines 26-29: the status check. *)
Definition status_check (r : response) : M unit :=
  if (status_code r =? 200)%Z
  then print "Success!"
  else print ("Error: " ++ str_int (status_code r)).

(** Line 31: [print(r.json())]. *)
Definition print_json (r : response) : M unit :=
  v <- response_json r ;;
  print (py_str v).

Definition pin_url : string :=
  "https://api.pinata.cloud/pinning/pinFileToIPFS".

(** The whole script, top to bottom. *)
Definition main (w : world) : M unit :=
  PINATA_API_KEY <- environ_get w "PINATA_API_KEY" ;;
  PINATA_SECRET_API_KEY <- environ_get w "PINATA_SECRET_API_KEY" ;;
  manifest <- py_open w "package.json" ;;
  doc <- json_load manifest ;;
  VERSION <- subscript doc "version" ;;
  files <- build_files w VERSION ;;
  print ("Uploading " ++ py_str VERSION ++ ": "
           ++ str_int (Z.of_nat (length files)) ++ " files...") ;;
  r <- requests_post w pin_url
         [ ("pinata_api_key", PINATA_API_KEY);
           ("pinata_secret_api_key", PINATA_SECRET_API_KEY) ]
         files ;;
  status_check r ;;
  print_json r.

(** A run starts with an empty log. *)
Definition run (w : world) : list event * (exn + unit) := main w [].

Definition trace (w : world) : list event := fst (run w).
Definition outcome (w : world) : exn + unit := snd (run w).

End Script.

(** Unfolding a run down to its first statement, or only down to the
    pair [run] computes. *)
Ltac unfold_script := unfold outcome, trace, run, main.
Ltac unfold_log := unfold outcome, trace.

(** The interpreter exits with 0 when the script runs to its end and
    with 1 on an unhandled exception. *)
Definition exit_status {A} (o : exn + A) : Z :=
  match o with
  | inr _ => 0
  | inl _ => 1
  end.

(** The requests a log contains, in order. *)
Fixpoint posts (t : list event) : list request :=
  match t with
  | [] => []
  | EvPost q :: rest => q :: posts rest
  | _ :: rest => posts rest
  end.

(** The paths a log opened, in order. *)
Fixpoint opened (t : list event) : list string :=
  match t with
  | [] => []
  | EvOpen p :: rest => p :: opened rest
  | _ :: rest => opened rest
  end.

(** The lines a log printed, in order. *)
Fixpoint printed (t : list event) : list string :=
  match t with
  | [] => []
  | EvPrint l :: rest => l :: printed rest
  | _ :: rest => printed rest
  end.

(** The paths a log read from, in order. *)
Fixpoint read_paths (t : list event) : list string :=
  match t with
  | [] => []
  | EvRead p :: rest => p :: read_paths rest
  | _ :: rest => read_paths rest
  end.

(** ** Fixtures: a small decoder and renderer for concrete runs *)

Module Fixtures.

(** The double-quote character, code 34. *)
Definition dq : string :=
  String (Ascii.Ascii false true false false false true false false) EmptyString.

Definition manifest_text : string :=
  "{" ++ dq ++ "version" ++ dq ++ ": " ++ dq ++ "1.2.3" ++ dq ++ "}".
Definition reply_text : string :=
  "{" ++ dq ++ "IpfsHash" ++ dq ++ ": " ++ dq ++ "Qm" ++ dq ++ "}".

Definition loads (text : string) : option json :=
  if String.eqb text manifest_text then Some (JObj [("version", JStr "1.2.3")])
  else if String.eqb text reply_text then Some (JObj [("IpfsHash", JStr "Qm")])
  else if String.eqb text "{}" then Some (JObj [])
  else None.

Definition repr (v : json) : string :=
  match v with
  | JObj [(k, JStr s)] => "{'" ++ k ++ "': '" ++ s ++ "'}"
  | JObj [] => "{}"
  | JInt n => str_int n
  | _ => "<value>"
  end.

Definition env : gmap string string :=
  {[ "PINATA_API_KEY" := "key"; "PINATA_SECRET_API_KEY" := "secret" ]}.

Definition fs : gmap string file_content :=
  {[ "package.json" := Readable manifest_text;
     "dist/cactus.js" := Readable "js";
     "dist/cactus.js.map" := Readable "jsmap";
     "dist/style.css" := Readable "css";
     "dist/style.js.map" := Readable "cssmap" ]}.

Definition reply (status : Z) (text : string) (_ : request) : exn + response :=
  inr (mkResponse status text).

Definition ok_world : world := mkWorld env fs (reply 200 reply_text).

End Fixtures.

(** ** The shape of a run *)

Section Shape.

Variable json_loads : string -> option json.
Variable py_repr : json -> string.

Abbreviation py_str := (py_str py_repr).
Abbreviation run := (run json_loads py_repr).
Abbreviation trace := (trace json_loads py_repr).
Abbreviation outcome := (outcome json_loads py_repr).

(** The [files] list once the four sources are open. *)
Definition files_of (VERSION : json) (c1 c2 c3 c4 : file_content)
    : list (string * upload_item) :=
  [ ("file", mkItem (py_str VERSION ++ "/cactus.js")
               (mkHandle "dist/cactus.js" c1) "text/javascript");
    ("file", mkItem (py_str VERSION ++ "/cactus.js.map")
               (mkHandle "dist/cactus.js.map" c2) "application/json");
    ("file", mkItem (py_str VERSION ++ "/style.css")
               (mkHandle "dist/style.css" c3) "text/css");
    ("file", mkItem (py_str VERSION ++ "/style.css.map")
               (mkHandle "dist/style.js.map" c4) "application/json") ].

(** The request sent for given credentials and files. *)
Definition request_of (K S : string) (files : list (string * upload_item))
    : request :=
  mkRequest "POST" pin_url
    [ ("pinata_api_key", K); ("pinata_secret_api_key", S) ] files.

(** The log of a run at the moment the request has gone out. *)
Definition log_at_post (VERSION : json) (req : request) : list event :=
  [ EvOpen "package.json"; EvRead "package.json";
    EvOpen "dist/cactus.js"; EvOpen "dist/cactus.js.map";
    EvOpen "dist/style.css"; EvOpen "dist/style.js.map";
    EvPrint ("Uploading " ++ py_str VERSION ++ ": 4 files...");
    EvPost req ].

(** The configuration a run needs to get as far as the request. *)
Record ready (w : world) (K S : string) (VERSION : json)
    (c1 c2 c3 c4 : file_content) : Prop := mkReady {
  ready_key : w_env w !! "PINATA_API_KEY" = Some K;
  ready_secret : w_env w !! "PINATA_SECRET_API_KEY" = Some S;
  ready_manifest : exists text d,
    w_fs w !! "package.json" = Some (Readable text) /\
    json_loads text = Some (JObj d) /\
    dict_get "version" d = Some VERSION;
  ready_f1 : w_fs w !! "dist/cactus.js" = Some c1;
  ready_f2 : w_fs w !! "dist/cactus.js.map" = Some c2;
  ready_f3 : w_fs w !! "dist/style.css" = Some c3;
  ready_f4 : w_fs w !! "dist/style.js.map" = Some c4
}.

(** A ready run goes straight to the request; what follows is decided
    by the peer's answer. *)
Lemma run_ready w K S VERSION c1 c2 c3 c4 :
  ready w K S VERSION c1 c2 c3 c4 ->
  let req := request_of K S (files_of VERSION c1 c2 c3 c4) in
  run w =
    match w_http w req with
    | inl e => (log_at_post VERSION req, inl e)
    | inr r => (status_check r ;; print_json json_loads py_repr r)
                 (log_at_post VERSION req)
    end.
Proof.
  intros [HK HS (text & d & Hm & Hl & Hv) H1 H2 H3 H4] req.
  unfold_script.
  unfold build_files, environ_get, py_open, json_load, subscript,
    requests_post, print, bind, emit, ret, raise.
  rewrite HK, HS, Hm. cbn. rewrite Hl, Hv, H1, H2, H3, H4. cbn.
  subst req. unfold request_of, files_of.
  match goal with |- context [w_http w ?q] => destruct (w_http w q) end;
    reflexivity.
Qed.

Ltac stopped :=
  right; do 2 eexists; (split; [|split]);
  [ | | intros; cbn; reflexivity ]; reflexivity.

(** Whether a run is ready is decided by the environment and the file
    system alone. Any other run stops with an exception before it
    prints or sends anything, the same way whatever the peer. *)
Lemma config_cases (env : gmap string string) (fs : gmap string file_content) :
  (exists K S VERSION c1 c2 c3 c4,
     forall http, ready (mkWorld env fs http) K S VERSION c1 c2 c3 c4) \/
  (exists t e,
     posts t = [] /\ printed t = [] /\
     forall http, run (mkWorld env fs http) = (t, inl e)).
Proof.
  unfold_script.
  unfold build_files, environ_get, py_open, json_load, subscript,
    requests_post, print, bind, emit, ret, raise.
  cbn [w_env w_fs w_http].
  destruct (env !! "PINATA_API_KEY") as [K|] eqn:HK;
    [ | stopped ].
  destruct (env !! "PINATA_SECRET_API_KEY") as [S|] eqn:HS;
    [ | stopped ].
  destruct (fs !! "package.json") as [[text|]|] eqn:Hm;
    [ | stopped .. ].
  cbn.
  destruct (json_loads text) as [doc|] eqn:Hl;
    [ | stopped ].
  destruct doc as [ | | | | | | d]; try (stopped; fail).
  cbn.
  destruct (dict_get "version" d) as [VERSION|] eqn:Hv;
    [ | stopped ].
  destruct (fs !! "dist/cactus.js") as [c1|] eqn:H1;
    [ | stopped ].
  destruct (fs !! "dist/cactus.js.map") as [c2|] eqn:H2;
    [ | stopped ].
  destruct (fs !! "dist/style.css") as [c3|] eqn:H3;
    [ | stopped ].
  destruct (fs !! "dist/style.js.map") as [c4|] eqn:H4;
    [ | stopped ].
  left. exists K, S, VERSION, c1, c2, c3, c4. intros http. split; eauto.
Qed.

Lemma run_cases w :
  (exists K S VERSION c1 c2 c3 c4, ready w K S VERSION c1 c2 c3 c4) \/
  (posts (trace w) = [] /\ printed (trace w) = [] /\
   exists e, outcome w = inl e).
Proof.
  destruct w as [env fs http].
  destruct (config_cases env fs)
    as [(K & S & V & c1 & c2 & c3 & c4 & R)|(t & e & Hp & Hl & Hrun)].
  - left. exists K, S, V, c1, c2, c3, c4. apply R.
  - right. unfold_log. rewrite Hrun. cbn. eauto.
Qed.

Lemma posts_app t u : posts (t ++ u) = posts t ++ posts u.
Proof.
  induction t as [|[] t IH]; cbn; rewrite ?IH; reflexivity.
Qed.

Lemma opened_app t u : opened (t ++ u) = opened t ++ opened u.
Proof.
  induction t as [|[] t IH]; cbn; rewrite ?IH; reflexivity.
Qed.

Lemma printed_app t u : printed (t ++ u) = printed t ++ printed u.
Proof.
  induction t as [|[] t IH]; cbn; rewrite ?IH; reflexivity.
Qed.

Lemma read_paths_app t u : read_paths (t ++ u) = read_paths t ++ read_paths u.
Proof.
  induction t as [|[] t IH]; cbn; rewrite ?IH; reflexivity.
Qed.

Lemma In_posts q t : In (EvPost q) t -> In q (posts t).
Proof.
  induction t as [|e t IH]; cbn; [tauto|].
  intros [->|H]; [left; reflexivity|].
  destruct e; cbn; auto.
Qed.

(** The status line of a response. *)
Lemma status_check_log r t :
  status_check r t =
    (t ++ [EvPrint (if (status_code r =? 200)%Z then "Success!"
                    else "Error: " ++ str_int (status_code r))], inr tt).
Proof.
  unfold status_check, print, emit. destruct (status_code r =? 200)%Z; reflexivity.
Qed.

(** Lines 26-31 on a response whose body decodes. *)
Lemma report_decoded r v t :
  json_loads (body r) = Some v ->
  (status_check r ;; print_json json_loads py_repr r) t =
    (t ++ [EvPrint (if (status_code r =? 200)%Z then "Success!"
                    else "Error: " ++ str_int (status_code r));
           EvPrint (py_str v)], inr tt).
Proof.
  intros Hv. unfold bind. rewrite status_check_log.
  unfold print_json, response_json, bind, ret, print, emit. rewrite Hv.
  rewrite <- app_assoc. reflexivity.
Qed.

(** Lines 26-31 on a response whose body does not decode. *)
Lemma report_undecoded r t :
  json_loads (body r) = None ->
  (status_check r ;; print_json json_loads py_repr r) t =
    (t ++ [EvPrint (if (status_code r =? 200)%Z then "Success!"
                    else "Error: " ++ str_int (status_code r))],
     inl JSONDecodeError).
Proof.
  intros Hv. unfold bind. rewrite status_check_log.
  unfold print_json, response_json, bind, raise. rewrite Hv. reflexivity.
Qed.

(** After the request has gone out the script only prints. *)
Lemma run_ready_log w K S VERSION c1 c2 c3 c4 :
  ready w K S VERSION c1 c2 c3 c4 ->
  let req := request_of K S (files_of VERSION c1 c2 c3 c4) in
  exists tail,
    trace w = log_at_post VERSION req ++ tail /\
    posts tail = [] /\ opened tail = [] /\ read_paths tail = [].
Proof.
  intros R req. unfold_log. rewrite (run_ready _ _ _ _ _ _ _ _ R).
  fold req. destruct (w_http w req) as [e|r].
  - exists []. rewrite app_nil_r. auto.
  - destruct (json_loads (body r)) as [v|] eqn:Hv.
    + rewrite (report_decoded _ _ _ Hv). eexists. split; [reflexivity|].
      cbn. auto.
    + rewrite (report_undecoded _ _ Hv). eexists. split; [reflexivity|].
      cbn. auto.
Qed.

Lemma ready_posts w K S VERSION c1 c2 c3 c4 :
  ready w K S VERSION c1 c2 c3 c4 ->
  posts (trace w) = [request_of K S (files_of VERSION c1 c2 c3 c4)].
Proof.
  intros R. destruct (run_ready_log _ _ _ _ _ _ _ _ R) as (tail & -> & Hp & _).
  rewrite posts_app, Hp. reflexivity.
Qed.

(** A run that sent a request was ready, and sent that request only. *)
Lemma posted_ready w req :
  In (EvPost req) (trace w) ->
  exists K S VERSION c1 c2 c3 c4,
    ready w K S VERSION c1 c2 c3 c4 /\
    req = request_of K S (files_of VERSION c1 c2 c3 c4).
Proof.
  intros Hin. apply In_posts in Hin.
  destruct (run_cases w) as [(K & S & V & c1 & c2 & c3 & c4 & R)|(Hp & _)].
  - exists K, S, V, c1, c2, c3, c4. split; [assumption|].
    rewrite (ready_posts _ _ _ _ _ _ _ _ R) in Hin.
    destruct Hin as [<-|[]]. reflexivity.
  - rewrite Hp in Hin. destruct Hin.
Qed.

End Shape.

(** ** Properties of the script *)

(** The world [w] with every status the peer answers replaced by [f] of
    it; bodies and transport errors are kept. *)
Definition with_status (f : Z -> Z) (w : world) : world :=
  mkWorld (w_env w) (w_fs w)
    (fun q =>
       match w_http w q with
       | inl e => inl e
       | inr r => inr (mkResponse (f (status_code r)) (body r))
       end).

(** The part name and content type of every entry of a request's payload. *)
Definition part_signature (req : request) : list (string * string) :=
  map (fun p => (part_name (snd p), part_type (snd p))) (req_files req).

(** The file name of a source path under [dist/]. *)
Definition dist_name (path : string) : string :=
  substring 5 (String.length path - 5) path.

(** Whether an item is uploaded under the file name it is read from. *)
Definition same_name (version : string) (it : upload_item) : bool :=
  String.eqb (part_name it) (version ++ "/" ++ dist_name (h_path (part_file it))).

Lemma eqb_app_l (v a b : string) : String.eqb (v ++ a) (v ++ b) = String.eqb a b.
Proof.
  induction v as [|c v IH]; [reflexivity|].
  change (String.append (String c v) a) with (String c (String.append v a)).
  change (String.append (String c v) b) with (String c (String.append v b)).
  cbn [String.eqb]. rewrite Ascii.eqb_refl. exact IH.
Qed.

(** The field name and part name of every entry of a request's payload. *)
Definition part_labels (req : request) : list (string * string) :=
  map (fun p => (fst p, part_name (snd p))) (req_files req).

Section Properties.

Variable json_loads : string -> option json.
Variable py_repr : json -> string.

Abbreviation py_str := (py_str py_repr).
Abbreviation run := (run json_loads py_repr).
Abbreviation trace := (trace json_loads py_repr).
Abbreviation outcome := (outcome json_loads py_repr).

(** C1. With both credentials set, a manifest whose [version] is the
    string 1.2.3 and the four source files present, the run sends one
    request whose payload has exactly four parts, named
    1.2.3/cactus.js, 1.2.3/cactus.js.map, 1.2.3/style.css and
    1.2.3/style.css.map, each under the field name [file]. *)
Theorem upload_1_2_3_parts (w : world) (text : string)
    (d : list (string * json)) :
  is_Some (w_env w !! "PINATA_API_KEY") ->
  is_Some (w_env w !! "PINATA_SECRET_API_KEY") ->
  w_fs w !! "package.json" = Some (Readable text) ->
  json_loads text = Some (JObj d) ->
  dict_get "version" d = Some (JStr "1.2.3") ->
  is_Some (w_fs w !! "dist/cactus.js") ->
  is_Some (w_fs w !! "dist/cactus.js.map") ->
  is_Some (w_fs w !! "dist/style.css") ->
  is_Some (w_fs w !! "dist/style.js.map") ->
  exists req,
    posts (trace w) = [req] /\
    length (req_files req) = 4 /\
    part_labels req =
      [ ("file", "1.2.3/cactus.js"); ("file", "1.2.3/cactus.js.map");
        ("file", "1.2.3/style.css"); ("file", "1.2.3/style.css.map") ].
Proof.
  intros [K HK] [S HS] Hm Hl Hv [c1 H1] [c2 H2] [c3 H3] [c4 H4].
  assert (R : ready json_loads w K S (JStr "1.2.3") c1 c2 c3 c4)
    by (split; eauto).
  eexists. split; [apply (ready_posts _ _ _ _ _ _ _ _ _ _ R)|].
  split; reflexivity.
Qed.

(** C2. Without [PINATA_API_KEY] in the environment the run ends with
    the [KeyError] of the first lookup: nothing has been opened,
    printed or sent. *)
Theorem missing_api_key_stops_first (w : world) :
  w_env w !! "PINATA_API_KEY" = None ->
  outcome w = inl (KeyError "PINATA_API_KEY") /\
  trace w = [] /\
  posts (trace w) = [].
Proof.
  intros HK.
  unfold_script.
  unfold bind, environ_get, raise.
  rewrite HK. cbn. auto.
Qed.

(** C3. When the manifest decodes to an object without a [version]
    key the run raises; the only file it may have opened is the
    manifest itself, so none of the four sources, and no request has
    been built or sent. With both credentials set the exception is the
    [KeyError] of the missing key. *)
Theorem missing_version_stops_before_files (w : world) (text : string)
    (d : list (string * json)) :
  w_fs w !! "package.json" = Some (Readable text) ->
  json_loads text = Some (JObj d) ->
  dict_get "version" d = None ->
  (exists e, outcome w = inl e) /\
  (forall p, In p (opened (trace w)) -> p = "package.json") /\
  posts (trace w) = [] /\
  (is_Some (w_env w !! "PINATA_API_KEY") ->
   is_Some (w_env w !! "PINATA_SECRET_API_KEY") ->
   outcome w = inl (KeyError "version") /\
   opened (trace w) = ["package.json"]).
Proof.
  intros Hm Hl Hv.
  unfold_script.
  unfold bind, environ_get, py_open, json_load, subscript, emit, ret, raise.
  destruct (w_env w !! "PINATA_API_KEY") as [K|]; cbn.
  2: { split; [eauto|]. split; [tauto|]. split; [reflexivity|].
       intros [? ?]; discriminate. }
  destruct (w_env w !! "PINATA_SECRET_API_KEY") as [S|]; cbn.
  2: { split; [eauto|]. split; [tauto|]. split; [reflexivity|].
       intros _ [? ?]; discriminate. }
  rewrite Hm. cbn. rewrite Hl, Hv. cbn.
  split; [eauto|]. split; [|auto].
  intros p [<-|[]]. reflexivity.
Qed.

(** C4, as the script has it. For every response received whose body
    decodes as JSON: with status 200 the run prints Success! and then
    the decoded body, with any other status it prints Error: and the
    status, and then the decoded body; in both cases it ends without
    an exception. *)
Theorem decoded_reply_is_reported (w : world) (req : request)
    (r : response) (v : json) :
  In (EvPost req) (trace w) ->
  w_http w req = inr r ->
  json_loads (body r) = Some v ->
  outcome w = inr tt /\
  exists before,
    (status_code r = 200%Z ->
     trace w = before ++ [EvPost req; EvPrint "Success!";
                          EvPrint (py_str v)]) /\
    (status_code r <> 200%Z ->
     trace w = before ++ [EvPost req;
                          EvPrint ("Error: " ++ str_int (status_code r));
                          EvPrint (py_str v)]).
Proof.
  intros Hin Hr Hv.
  destruct (posted_ready _ _ _ _ Hin)
    as (K & S & V & c1 & c2 & c3 & c4 & R & ->).
  unfold_log.
  rewrite (run_ready _ _ _ _ _ _ _ _ _ _ R). cbv zeta. rewrite Hr.
  rewrite (report_decoded _ _ _ _ _ Hv). cbn [fst snd].
  split; [reflexivity|].
  exists (removelast (log_at_post py_repr V
            (request_of K S (files_of py_repr V c1 c2 c3 c4)))).
  split; intros Hs.
  - rewrite Hs. reflexivity.
  - apply Z.eqb_neq in Hs. rewrite Hs. reflexivity.
Qed.

(** C6. A run that reaches the network call sends exactly one request:
    a POST to the pinning endpoint, with the API key under the header
    [pinata_api_key] and the secret under [pinata_secret_api_key], and
    as payload the four-entry list that [build_files] returned. *)
Theorem one_post_to_pinata (w : world) (req : request) :
  In (EvPost req) (trace w) ->
  posts (trace w) = [req] /\
  req_method req = "POST" /\
  req_url req = "https://api.pinata.cloud/pinning/pinFileToIPFS" /\
  (exists K S,
     w_env w !! "PINATA_API_KEY" = Some K /\
     w_env w !! "PINATA_SECRET_API_KEY" = Some S /\
     req_headers req =
       [ ("pinata_api_key", K); ("pinata_secret_api_key", S) ]) /\
  (exists VERSION t0 t1,
     build_files py_repr w VERSION t0 = (t1, inr (req_files req))) /\
  length (req_files req) = 4.
Proof.
  intros Hin.
  destruct (posted_ready _ _ _ _ Hin)
    as (K & S & V & c1 & c2 & c3 & c4 & R & ->).
  split; [apply (ready_posts _ _ _ _ _ _ _ _ _ _ R)|].
  split; [reflexivity|]. split; [reflexivity|].
  destruct R as [HK HS _ H1 H2 H3 H4].
  split; [exists K, S; auto|].
  split; [|reflexivity].
  exists V, [], (map EvOpen ["dist/cactus.js"; "dist/cactus.js.map";
                             "dist/style.css"; "dist/style.js.map"]).
  unfold build_files, py_open, bind, emit, ret.
  rewrite H1, H2, H3, H4. reflexivity.
Qed.

(** C10. The body is only ever printed through [r.json()]. When the
    body of the response received does not decode, whatever the
    status, the run ends with the decoder's exception right after the
    status line: the log stops at Success! for status 200 and at
    Error: and the status otherwise, and the two lines printed in the
    whole run are the announcement and that status line. *)
Theorem undecodable_reply_raises (w : world) (req : request)
    (r : response) :
  In (EvPost req) (trace w) ->
  w_http w req = inr r ->
  json_loads (body r) = None ->
  outcome w = inl JSONDecodeError /\
  exists before announcement,
    printed before = [announcement] /\
    (status_code r = 200%Z ->
     trace w = before ++ [EvPost req; EvPrint "Success!"]) /\
    (status_code r <> 200%Z ->
     trace w = before ++ [EvPost req;
                          EvPrint ("Error: " ++ str_int (status_code r))]).
Proof.
  intros Hin Hr Hv.
  destruct (posted_ready _ _ _ _ Hin)
    as (K & S & V & c1 & c2 & c3 & c4 & R & ->).
  unfold_log.
  rewrite (run_ready _ _ _ _ _ _ _ _ _ _ R). cbv zeta. rewrite Hr.
  rewrite (report_undecoded _ _ _ _ Hv). cbn [fst snd].
  split; [reflexivity|].
  exists (removelast (log_at_post py_repr V
            (request_of K S (files_of py_repr V c1 c2 c3 c4)))).
  eexists. split; [reflexivity|].
  split; intros Hs.
  - rewrite Hs. reflexivity.
  - apply Z.eqb_neq in Hs. rewrite Hs. reflexivity.
Qed.

(** C5. Replacing the status of the peer's answer, 200 or not, by any
    other leaves the way the run ends unchanged: same outcome, same
    exit status. The status check itself never raises, and the
    statement after it runs the same whichever line was printed: the
    two logs agree except for the status line. *)
Theorem status_does_not_change_termination (w : world) (f : Z -> Z) :
  outcome (with_status f w) = outcome w /\
  exit_status (outcome (with_status f w)) = exit_status (outcome w) /\
  (forall r t, exists line,
     status_check r t = (t ++ [EvPrint line], inr tt)) /\
  (forall r t,
     print_json json_loads py_repr
       (mkResponse (f (status_code r)) (body r)) t =
     print_json json_loads py_repr r t) /\
  exists before after,
    (trace w = before ++ after /\
     trace (with_status f w) = before ++ after) \/
    (exists line line',
       trace w = before ++ EvPrint line :: after /\
       trace (with_status f w) = before ++ EvPrint line' :: after).
Proof.
  assert (Hrun :
    outcome (with_status f w) = outcome w /\
    exists before after,
      (trace w = before ++ after /\
       trace (with_status f w) = before ++ after) \/
      (exists line line',
         trace w = before ++ EvPrint line :: after /\
         trace (with_status f w) = before ++ EvPrint line' :: after)).
  { destruct w as [env fs http]. unfold with_status. cbn [w_env w_fs w_http].
    unfold_log.
    destruct (config_cases json_loads py_repr env fs)
      as [(K & S & V & c1 & c2 & c3 & c4 & R)|(t & e & _ & _ & Hstop)].
    - rewrite !(run_ready _ _ _ _ _ _ _ _ _ _ (R _)). cbv zeta.
      cbn [w_http].
      destruct (http _) as [e|r].
      + split; [reflexivity|]. exists (log_at_post py_repr V
          (request_of K S (files_of py_repr V c1 c2 c3 c4))), [].
        left. rewrite app_nil_r. auto.
      + destruct (json_loads (body r)) as [v|] eqn:Hv.
        * rewrite (report_decoded _ _ r v _ Hv).
          rewrite (report_decoded _ _ (mkResponse _ _) v _ Hv).
          split; [reflexivity|]. do 2 eexists. right. do 2 eexists.
          cbn [fst]. split; reflexivity.
        * rewrite (report_undecoded _ _ r _ Hv).
          rewrite (report_undecoded _ _ (mkResponse _ _) _ Hv).
          split; [reflexivity|]. do 2 eexists. right. do 2 eexists.
          cbn [fst]. split; reflexivity.
    - rewrite !Hstop. split; [reflexivity|]. exists t, [].
      left. rewrite app_nil_r. auto. }
  destruct Hrun as [Ho Ht].
  split; [exact Ho|]. split; [rewrite Ho; reflexivity|].
  split; [intros r t; eexists; apply status_check_log|].
  split; [reflexivity|exact Ht].
Qed.

(** C7. The requests a run sends are decided by the environment and the
    files alone: two runs that differ only in what the peer does send
    the same requests, hence the same part names and content types. *)
Theorem request_construction_deterministic
    (env : gmap string string) (fs : gmap string file_content)
    (http1 http2 : request -> exn + response) :
  posts (trace (mkWorld env fs http1)) = posts (trace (mkWorld env fs http2)) /\
  map part_signature (posts (trace (mkWorld env fs http1))) =
  map part_signature (posts (trace (mkWorld env fs http2))).
Proof.
  assert (H : posts (trace (mkWorld env fs http1))
              = posts (trace (mkWorld env fs http2))).
  { destruct (config_cases json_loads py_repr env fs)
      as [(K & S & V & c1 & c2 & c3 & c4 & R)|(t & e & _ & _ & Hstop)].
    - rewrite !(ready_posts _ _ _ _ _ _ _ _ _ _ (R _)). reflexivity.
    - unfold_log. rewrite !Hstop. reflexivity. }
  split; [exact H|]. rewrite H. reflexivity.
Qed.

(** C8. In a run that reaches the network call the manifest is opened
    and read once, and nothing but the four sources is opened after
    it; the one version read from it prefixes all four part names; the
    payload sent is the four-entry list that was announced, and it is
    sent once. *)
Theorem version_read_once_and_shared (w : world) (req : request) :
  In (EvPost req) (trace w) ->
  read_paths (trace w) = ["package.json"] /\
  opened (trace w) =
    [ "package.json"; "dist/cactus.js"; "dist/cactus.js.map";
      "dist/style.css"; "dist/style.js.map" ] /\
  posts (trace w) = [req] /\
  length (req_files req) = 4 /\
  exists VERSION,
    (exists text d,
       w_fs w !! "package.json" = Some (Readable text) /\
       json_loads text = Some (JObj d) /\
       dict_get "version" d = Some VERSION) /\
    map (fun p => part_name (snd p)) (req_files req) =
      map (fun name => (py_str VERSION ++ "/" ++ name)%string)
        [ "cactus.js"; "cactus.js.map"; "style.css"; "style.css.map" ] /\
    hd_error (printed (trace w)) =
      Some ("Uploading " ++ py_str VERSION ++ ": 4 files...")%string.
Proof.
  intros Hin.
  destruct (posted_ready _ _ _ _ Hin)
    as (K & S & V & c1 & c2 & c3 & c4 & R & ->).
  destruct (run_ready_log json_loads py_repr _ _ _ _ _ _ _ _ R)
    as (tail & Ht & Hp & Ho & Hr).
  cbv zeta in Ht. rewrite Ht.
  rewrite read_paths_app, opened_app, posts_app, printed_app, Hp, Ho, Hr.
  split; [reflexivity|]. split; [reflexivity|]. split; [reflexivity|].
  split; [reflexivity|].
  exists V. split; [apply (ready_manifest _ _ _ _ _ _ _ _ _ R)|].
  split; reflexivity.
Qed.

(** C9. In a run that reaches the network call the fourth item is read
    from dist/style.js.map and uploaded as {version}/style.css.map; it
    is the only item whose part name is not its source file name under
    the version. *)
Theorem fourth_item_is_renamed (w : world) (req : request) :
  In (EvPost req) (trace w) ->
  exists VERSION i1 i2 i3 i4,
    map snd (req_files req) = [i1; i2; i3; i4] /\
    h_path (part_file i4) = "dist/style.js.map" /\
    part_name i4 = (py_str VERSION ++ "/style.css.map")%string /\
    In (EvOpen "dist/style.js.map") (trace w) /\
    ~ In (EvOpen "dist/style.css.map") (trace w) /\
    same_name (py_str VERSION) i1 = true /\
    same_name (py_str VERSION) i2 = true /\
    same_name (py_str VERSION) i3 = true /\
    same_name (py_str VERSION) i4 = false.
Proof.
  intros Hin.
  destruct (posted_ready _ _ _ _ Hin)
    as (K & S & V & c1 & c2 & c3 & c4 & R & ->).
  destruct (run_ready_log json_loads py_repr _ _ _ _ _ _ _ _ R)
    as (tail & Ht & _ & Ho & _).
  cbv zeta in Ht.
  exists V. do 4 eexists. split; [reflexivity|].
  split; [reflexivity|]. split; [reflexivity|].
  split; [rewrite Ht; apply in_or_app; left; cbn; tauto|].
  split.
  { intros Habs. rewrite Ht in Habs. apply in_app_or in Habs.
    destruct Habs as [Habs|Habs].
    - cbn in Habs. intuition discriminate.
    - assert (Hx : In "dist/style.css.map" (opened tail)).
      { clear - Habs. induction tail as [|e t IH]; [destruct Habs|].
        destruct Habs as [->|Habs]; [left; reflexivity|].
        destruct e; cbn; auto. }
      rewrite Ho in Hx. destruct Hx. }
  unfold same_name. cbn [snd part_name part_file h_path].
  repeat split; try apply String.eqb_refl.
  change (py_str V ++ "/" ++ dist_name "dist/style.js.map")%string
    with (py_str V ++ "/style.js.map")%string.
  rewrite eqb_app_l. reflexivity.
Qed.

End Properties.

(** ** Concrete runs *)

Module Runs.
Import Fixtures.

Abbreviation run := (run loads repr).
Abbreviation trace := (trace loads repr).
Abbreviation outcome := (outcome loads repr).

(** No API key in the environment. *)
Definition no_key_world : world :=
  mkWorld {[ "PINATA_SECRET_API_KEY" := "secret" ]} fs (reply 200 reply_text).

(** A manifest without a version. *)
Definition no_version_world : world :=
  mkWorld env (<[ "package.json" := Readable "{}" ]> fs) (reply 200 reply_text).

(** The peer answers 500 with a plain-text body. *)
Definition plain_500_world : world :=
  mkWorld env fs (reply 500 "Internal Server Error").

(** The peer answers 500 with a JSON body. *)
Definition json_500_world : world :=
  mkWorld env fs (reply 500 reply_text).

(** The peer fails every upload with status 500. *)
Definition to_500 (_ : Z) : Z := 500%Z.

(** The request the fixture worlds send. *)
Definition sent : request :=
  request_of "key" "secret"
    (files_of repr (JStr "1.2.3")
       (Readable "js") (Readable "jsmap") (Readable "css") (Readable "cssmap")).

End Runs.

Lemma upload_1_2_3_parts_witness :
  exists req,
    posts (Runs.trace Fixtures.ok_world) = [req] /\
    length (req_files req) = 4 /\
    part_labels req =
      [ ("file", "1.2.3/cactus.js"); ("file", "1.2.3/cactus.js.map");
        ("file", "1.2.3/style.css"); ("file", "1.2.3/style.css.map") ].
Proof.
  apply (upload_1_2_3_parts Fixtures.loads Fixtures.repr Fixtures.ok_world
           Fixtures.manifest_text [("version", JStr "1.2.3")]);
    try reflexivity; vm_compute; eauto.
Defined.

Lemma missing_api_key_stops_first_witness :
  Runs.outcome Runs.no_key_world = inl (KeyError "PINATA_API_KEY") /\
  Runs.trace Runs.no_key_world = [] /\
  posts (Runs.trace Runs.no_key_world) = [].
Proof.
  apply (missing_api_key_stops_first Fixtures.loads Fixtures.repr
           Runs.no_key_world).
  reflexivity.
Defined.

Lemma missing_version_stops_before_files_witness :
  Runs.outcome Runs.no_version_world = inl (KeyError "version") /\
  opened (Runs.trace Runs.no_version_world) = ["package.json"].
Proof.
  apply (missing_version_stops_before_files Fixtures.loads Fixtures.repr
           Runs.no_version_world "{}" []);
    try reflexivity; vm_compute; eauto.
Defined.

(** C4 as stated fails: a 500 answer with a plain-text body is received,
    the status line is printed, and the run then ends with an exception
    without printing the body. *)
Lemma plain_500_reply_raises :
  w_http Runs.plain_500_world Runs.sent
    = inr (mkResponse 500 "Internal Server Error") /\
  Runs.outcome Runs.plain_500_world = inl JSONDecodeError /\
  printed (Runs.trace Runs.plain_500_world)
    = ["Uploading 1.2.3: 4 files..."; "Error: 500"].
Proof. vm_compute. auto. Qed.

Lemma decoded_reply_is_reported_witness :
  Runs.outcome Runs.json_500_world = inr tt /\
  exists before,
    (500%Z = 200%Z ->
     Runs.trace Runs.json_500_world =
       before ++ [EvPost Runs.sent; EvPrint "Success!";
                  EvPrint "{'IpfsHash': 'Qm'}"]) /\
    (500%Z <> 200%Z ->
     Runs.trace Runs.json_500_world =
       before ++ [EvPost Runs.sent; EvPrint "Error: 500";
                  EvPrint "{'IpfsHash': 'Qm'}"]).
Proof.
  apply (decoded_reply_is_reported Fixtures.loads Fixtures.repr
           Runs.json_500_world Runs.sent
           (mkResponse 500 Fixtures.reply_text)
           (JObj [("IpfsHash", JStr "Qm")])).
  - vm_compute. tauto.
  - reflexivity.
  - reflexivity.
Defined.

Lemma one_post_to_pinata_witness :
  posts (Runs.trace Fixtures.ok_world) = [Runs.sent] /\
  length (req_files Runs.sent) = 4.
Proof.
  assert (H : In (EvPost Runs.sent) (Runs.trace Fixtures.ok_world))
    by (vm_compute; tauto).
  destruct (one_post_to_pinata Fixtures.loads Fixtures.repr
              Fixtures.ok_world Runs.sent H) as (Hp & _ & _ & _ & _ & Hl).
  exact (conj Hp Hl).
Defined.

Lemma undecodable_reply_raises_witness :
  Runs.outcome Runs.plain_500_world = inl JSONDecodeError.
Proof.
  apply (undecodable_reply_raises Fixtures.loads Fixtures.repr
           Runs.plain_500_world Runs.sent
           (mkResponse 500 "Internal Server Error")).
  - vm_compute. tauto.
  - reflexivity.
  - reflexivity.
Defined.

Lemma version_read_once_and_shared_witness :
  read_paths (Runs.trace Fixtures.ok_world) = ["package.json"] /\
  posts (Runs.trace Fixtures.ok_world) = [Runs.sent].
Proof.
  assert (H : In (EvPost Runs.sent) (Runs.trace Fixtures.ok_world))
    by (vm_compute; tauto).
  destruct (version_read_once_and_shared Fixtures.loads Fixtures.repr
              Fixtures.ok_world Runs.sent H) as (Hr & _ & Hp & _).
  exact (conj Hr Hp).
Defined.

Lemma fourth_item_is_renamed_witness :
  exists VERSION i1 i2 i3 i4,
    map snd (req_files Runs.sent) = [i1; i2; i3; i4] /\
    h_path (part_file i4) = "dist/style.js.map" /\
    part_name i4 = (py_str Fixtures.repr VERSION ++ "/style.css.map")%string.
Proof.
  assert (H : In (EvPost Runs.sent) (Runs.trace Fixtures.ok_world))
    by (vm_compute; tauto).
  destruct (fourth_item_is_renamed Fixtures.loads Fixtures.repr
              Fixtures.ok_world Runs.sent H)
    as (V & i1 & i2 & i3 & i4 & Hm & Hp & Hn & _).
  exists V, i1, i2, i3, i4. auto.
Defined.

(** The same upload answered 200 and answered 500, both with a JSON body:
    the two runs end normally, with the same exit status. *)
Example exit_status_200_vs_500 :
  exit_status (Runs.outcome Fixtures.ok_world) = 0%Z /\
  exit_status (Runs.outcome (with_status Runs.to_500 Fixtures.ok_world)) = 0%Z /\
  printed (Runs.trace (with_status Runs.to_500 Fixtures.ok_world))
    = ["Uploading 1.2.3: 4 files..."; "Error: 500"; "{'IpfsHash': 'Qm'}"].
Proof. vm_compute. auto. Qed.

(** ** Failure paths, and what a run depends on *)

(** The four source paths, in the order lines 10-13 open them. *)
Definition artifact_paths : list string :=
  [ "dist/cactus.js"; "dist/cactus.js.map"; "dist/style.css";
    "dist/style.js.map" ].

(** The status line of lines 26-29. *)
Definition status_line (r : response) : string :=
  if (status_code r =? 200)%Z then "Success!"
  else "Error: " ++ str_int (status_code r).

Section Paths.

Variable json_loads : string -> option json.
Variable py_repr : json -> string.

Abbreviation py_str := (py_str py_repr).
Abbreviation run := (run json_loads py_repr).
Abbreviation trace := (trace json_loads py_repr).
Abbreviation outcome := (outcome json_loads py_repr).

Ltac enter_script :=
  unfold_script;
  unfold build_files, environ_get, py_open, json_load, subscript,
    requests_post, print, bind, emit, ret, raise.

(** X1. With the API key set and [PINATA_SECRET_API_KEY] absent, the run
    ends with the [KeyError] of the second lookup and an empty log: the
    manifest has not been opened. *)
Theorem missing_secret_stops_second (w : world) (K : string) :
  w_env w !! "PINATA_API_KEY" = Some K ->
  w_env w !! "PINATA_SECRET_API_KEY" = None ->
  run w = ([], inl (KeyError "PINATA_SECRET_API_KEY")).
Proof.
  intros HK HS. enter_script. rewrite HK. cbn. rewrite HS. reflexivity.
Qed.

(** X2. With both credentials set and no [package.json], the run ends
    with [FileNotFoundError] for the manifest and an empty log. *)
Theorem missing_manifest_stops (w : world) :
  is_Some (w_env w !! "PINATA_API_KEY") ->
  is_Some (w_env w !! "PINATA_SECRET_API_KEY") ->
  w_fs w !! "package.json" = None ->
  run w = ([], inl (FileNotFoundError "package.json")).
Proof.
  intros [K HK] [S HS] Hm. enter_script.
  rewrite HK. cbn. rewrite HS. cbn. rewrite Hm. reflexivity.
Qed.

(** X3. A manifest whose text is not a JSON document ends the run with
    the decoder's exception once the manifest has been opened and read:
    no source file has been opened, nothing printed, nothing sent. *)
Theorem invalid_manifest_stops (w : world) (text : string) :
  is_Some (w_env w !! "PINATA_API_KEY") ->
  is_Some (w_env w !! "PINATA_SECRET_API_KEY") ->
  w_fs w !! "package.json" = Some (Readable text) ->
  json_loads text = None ->
  run w = ([EvOpen "package.json"; EvRead "package.json"],
           inl JSONDecodeError).
Proof.
  intros [K HK] [S HS] Hm Hl. enter_script.
  rewrite HK. cbn. rewrite HS. cbn. rewrite Hm. cbn. rewrite Hl. reflexivity.
Qed.

(** X4. A manifest that decodes to anything but an object (a list, a
    string, a number, a boolean, null) ends the run with [TypeError] at
    the subscript, before any source file is opened. *)
Theorem non_object_manifest_stops (w : world) (text : string) (doc : json) :
  is_Some (w_env w !! "PINATA_API_KEY") ->
  is_Some (w_env w !! "PINATA_SECRET_API_KEY") ->
  w_fs w !! "package.json" = Some (Readable text) ->
  json_loads text = Some doc ->
  (forall d, doc <> JObj d) ->
  run w = ([EvOpen "package.json"; EvRead "package.json"], inl TypeError).
Proof.
  intros [K HK] [S HS] Hm Hl Hdoc. enter_script.
  rewrite HK. cbn. rewrite HS. cbn. rewrite Hm. cbn. rewrite Hl.
  destruct doc; try reflexivity.
  destruct (Hdoc members). reflexivity.
Qed.

(** X5. With credentials and version in place, the first source file
    that is missing, in the order of the list, ends the run with its
    [FileNotFoundError]: the manifest and the sources before it have
    been opened, the ones after it have not, and nothing has been
    printed or sent. *)
Theorem first_missing_artifact_stops (w : world) (text : string)
    (d : list (string * json)) (VERSION : json)
    (before after : list string) (p : string) :
  is_Some (w_env w !! "PINATA_API_KEY") ->
  is_Some (w_env w !! "PINATA_SECRET_API_KEY") ->
  w_fs w !! "package.json" = Some (Readable text) ->
  json_loads text = Some (JObj d) ->
  dict_get "version" d = Some VERSION ->
  artifact_paths = before ++ p :: after ->
  (forall q, In q before -> is_Some (w_fs w !! q)) ->
  w_fs w !! p = None ->
  run w = (EvOpen "package.json" :: EvRead "package.json" :: map EvOpen before,
           inl (FileNotFoundError p)).
Proof.
  intros [K HK] [S HS] Hm Hl Hv Hsplit Hpres Hp. enter_script.
  rewrite HK. cbn. rewrite HS. cbn. rewrite Hm. cbn. rewrite Hl, Hv. cbn.
  unfold artifact_paths in Hsplit.
  destruct before as [|b1 [|b2 [|b3 [|b4 before]]]]; simplify_eq/=.
  - rewrite Hp. reflexivity.
  - destruct (Hpres "dist/cactus.js") as [c1 H1]; [tauto|].
    rewrite H1. cbn. rewrite Hp. reflexivity.
  - destruct (Hpres "dist/cactus.js") as [c1 H1]; [tauto|].
    destruct (Hpres "dist/cactus.js.map") as [c2 H2]; [tauto|].
    rewrite H1. cbn. rewrite H2. cbn. rewrite Hp. reflexivity.
  - destruct (Hpres "dist/cactus.js") as [c1 H1]; [tauto|].
    destruct (Hpres "dist/cactus.js.map") as [c2 H2]; [tauto|].
    destruct (Hpres "dist/style.css") as [c3 H3]; [tauto|].
    rewrite H1. cbn. rewrite H2. cbn. rewrite H3. cbn. rewrite Hp. reflexivity.
  - destruct before; discriminate.
Qed.

End Paths.

Section Reach.

Variable json_loads : string -> option json.
Variable py_repr : json -> string.

Abbreviation py_str := (py_str py_repr).
Abbreviation run := (run json_loads py_repr).
Abbreviation trace := (trace json_loads py_repr).
Abbreviation outcome := (outcome json_loads py_repr).
Abbreviation ready := (ready json_loads).
Abbreviation files_of := (files_of py_repr).

(** X6. When the transport raises, the run ends with that exception
    right after the request went out: the announcement is the only line
    printed, there is no status line. *)
Theorem transport_error_propagates (w : world) (K S : string)
    (VERSION : json) (c1 c2 c3 c4 : file_content) (e : exn) :
  ready w K S VERSION c1 c2 c3 c4 ->
  w_http w (request_of K S (files_of VERSION c1 c2 c3 c4)) = inl e ->
  outcome w = inl e /\
  printed (trace w) = [("Uploading " ++ py_str VERSION ++ ": 4 files...")%string] /\
  posts (trace w) = [request_of K S (files_of VERSION c1 c2 c3 c4)].
Proof.
  intros R He. unfold_log.
  rewrite (run_ready _ _ _ _ _ _ _ _ _ _ R). cbv zeta. rewrite He.
  cbn. auto.
Qed.

(** X7. Whatever JSON value the manifest has under [version], string or
    not, a ready run sends the request: the part names are that value's
    [str] followed by the four fixed names, with content types
    text/javascript, application/json, text/css and application/json,
    and each part carries the file opened from the matching source
    path, the last one from dist/style.js.map. *)
Theorem request_for_any_version (w : world) (K S : string)
    (VERSION : json) (c1 c2 c3 c4 : file_content) :
  ready w K S VERSION c1 c2 c3 c4 ->
  exists req,
    posts (trace w) = [req] /\
    part_signature req =
      [ ((py_str VERSION ++ "/cactus.js")%string, "text/javascript");
        ((py_str VERSION ++ "/cactus.js.map")%string, "application/json");
        ((py_str VERSION ++ "/style.css")%string, "text/css");
        ((py_str VERSION ++ "/style.css.map")%string, "application/json") ] /\
    map (fun p => h_path (part_file (snd p))) (req_files req)
      = artifact_paths /\
    map (fun p => w_fs w !! h_path (part_file (snd p))) (req_files req)
      = map (fun p => Some (h_content (part_file (snd p)))) (req_files req).
Proof.
  intros R. eexists. split; [apply (ready_posts _ _ _ _ _ _ _ _ _ _ R)|].
  split; [reflexivity|]. split; [reflexivity|].
  destruct R as [_ _ _ H1 H2 H3 H4]. cbn.
  rewrite H1, H2, H3, H4. reflexivity.
Qed.

(** X8. The console output of a ready run: the announcement; then, if
    the peer answered, the status line; then, if the body decodes, the
    [str] of the decoded body. Nothing else is printed, so the
    credentials appear in the output only if the peer's answer carries
    them. *)
Theorem console_output (w : world) (K S : string)
    (VERSION : json) (c1 c2 c3 c4 : file_content) :
  ready w K S VERSION c1 c2 c3 c4 ->
  printed (trace w) =
    ("Uploading " ++ py_str VERSION ++ ": 4 files...")%string ::
    match w_http w (request_of K S (files_of VERSION c1 c2 c3 c4)) with
    | inl _ => []
    | inr r =>
        status_line r ::
        match json_loads (body r) with
        | Some v => [py_str v]
        | None => []
        end
    end.
Proof.
  intros R. unfold_log.
  rewrite (run_ready _ _ _ _ _ _ _ _ _ _ R). cbv zeta.
  destruct (w_http w _) as [e|r]; [reflexivity|].
  destruct (json_loads (body r)) as [v|] eqn:Hv.
  - rewrite (report_decoded _ _ _ _ _ Hv). cbn [fst].
    rewrite printed_app. reflexivity.
  - rewrite (report_undecoded _ _ _ _ Hv). cbn [fst].
    rewrite printed_app. reflexivity.
Qed.

(** X9. The run exits with status 0 exactly when it is ready, the peer
    answers, and the body of the answer decodes as JSON; the status code
    of the answer plays no part. *)
Theorem exit_zero_iff (w : world) :
  exit_status (outcome w) = 0%Z <->
  exists K S VERSION c1 c2 c3 c4 r v,
    ready w K S VERSION c1 c2 c3 c4 /\
    w_http w (request_of K S (files_of VERSION c1 c2 c3 c4)) = inr r /\
    json_loads (body r) = Some v.
Proof.
  split.
  - destruct (run_cases json_loads py_repr w)
      as [(K & S & V & c1 & c2 & c3 & c4 & R)|(_ & _ & e & He)].
    + unfold_log. rewrite (run_ready _ _ _ _ _ _ _ _ _ _ R). cbv zeta.
      destruct (w_http w _) as [e|r] eqn:Hr; [discriminate|].
      destruct (json_loads (body r)) as [v|] eqn:Hv.
      * intros _. exists K, S, V, c1, c2, c3, c4, r, v. auto.
      * rewrite (report_undecoded _ _ _ _ Hv). discriminate.
    + rewrite He. discriminate.
  - intros (K & S & V & c1 & c2 & c3 & c4 & r & v & R & Hr & Hv).
    unfold_log. rewrite (run_ready _ _ _ _ _ _ _ _ _ _ R). cbv zeta.
    rewrite Hr, (report_decoded _ _ _ _ _ Hv). reflexivity.
Qed.


End Reach.

Section Silence.

Variable json_loads : string -> option json.
Variable py_repr : json -> string.

Abbreviation trace := (trace json_loads py_repr).

(** X11. Every failure before the request is silent: if a run printed
    any line at all, then the manifest and all four sources had been
    opened, in that order, and the request went out. *)
Theorem output_means_request_sent (w : world) (line : string) :
  In line (printed (trace w)) ->
  opened (trace w) = "package.json" :: artifact_paths /\
  exists req, posts (trace w) = [req].
Proof.
  intros Hin.
  destruct (run_cases json_loads py_repr w)
    as [(K & S & V & c1 & c2 & c3 & c4 & R)|(_ & Hp & _)].
  - destruct (run_ready_log json_loads py_repr _ _ _ _ _ _ _ _ R)
      as (tail & Ht & Hposts & Ho & _).
    cbv zeta in Ht. rewrite Ht, opened_app, posts_app, Ho, Hposts.
    split; [reflexivity|]. eexists. reflexivity.
  - rewrite Hp in Hin. destruct Hin.
Qed.

End Silence.

(** ** More concrete runs *)

Module Cases.
Import Fixtures.

(** The fixture decoder, extended with a list and with a manifest whose
    version is the number 7. *)
Definition numbered_text : string :=
  "{" ++ dq ++ "version" ++ dq ++ ": 7}".

Definition loads (text : string) : option json :=
  if String.eqb text "[]" then Some (JArr [])
  else if String.eqb text numbered_text then Some (JObj [("version", JInt 7)])
  else Fixtures.loads text.

Definition no_secret_world : world :=
  mkWorld {[ "PINATA_API_KEY" := "key" ]} fs (reply 200 reply_text).

Definition no_manifest_world : world :=
  mkWorld env (delete "package.json" fs) (reply 200 reply_text).

Definition bad_manifest_world : world :=
  mkWorld env (<[ "package.json" := Readable "version 1.2.3" ]> fs)
    (reply 200 reply_text).

Definition list_manifest_world : world :=
  mkWorld env (<[ "package.json" := Readable "[]" ]> fs) (reply 200 reply_text).

(** The style sheet has not been built; its map, under the name the
    upload uses, has. *)
Definition no_css_world : world :=
  mkWorld env
    (<[ "dist/style.css.map" := Readable "cssmap" ]> (delete "dist/style.css" fs))
    (reply 200 reply_text).

Definition refused (_ : request) : exn + response :=
  inl (RequestException "connection refused").

Definition offline_world : world := mkWorld env fs refused.

Definition numbered_world : world :=
  mkWorld env (<[ "package.json" := Readable numbered_text ]> fs)
    (reply 200 reply_text).


End Cases.

Lemma ok_world_ready :
  ready Fixtures.loads Fixtures.ok_world "key" "secret" (JStr "1.2.3")
    (Readable "js") (Readable "jsmap") (Readable "css") (Readable "cssmap").
Proof.
  split; try reflexivity.
  exists Fixtures.manifest_text, [("version", JStr "1.2.3")].
  repeat split; reflexivity.
Qed.

Lemma offline_world_ready :
  ready Fixtures.loads Cases.offline_world "key" "secret" (JStr "1.2.3")
    (Readable "js") (Readable "jsmap") (Readable "css") (Readable "cssmap").
Proof.
  split; try reflexivity.
  exists Fixtures.manifest_text, [("version", JStr "1.2.3")].
  repeat split; reflexivity.
Qed.

Lemma numbered_world_ready :
  ready Cases.loads Cases.numbered_world "key" "secret" (JInt 7)
    (Readable "js") (Readable "jsmap") (Readable "css") (Readable "cssmap").
Proof.
  split; try reflexivity.
  exists Cases.numbered_text, [("version", JInt 7)].
  repeat split; reflexivity.
Qed.

Lemma missing_secret_stops_second_witness :
  run Fixtures.loads Fixtures.repr Cases.no_secret_world
    = ([], inl (KeyError "PINATA_SECRET_API_KEY")).
Proof.
  apply (missing_secret_stops_second Fixtures.loads Fixtures.repr
           Cases.no_secret_world "key"); reflexivity.
Defined.

Lemma missing_manifest_stops_witness :
  run Fixtures.loads Fixtures.repr Cases.no_manifest_world
    = ([], inl (FileNotFoundError "package.json")).
Proof.
  apply (missing_manifest_stops Fixtures.loads Fixtures.repr
           Cases.no_manifest_world);
    [exists "key"; reflexivity | exists "secret"; reflexivity | reflexivity].
Defined.

Lemma invalid_manifest_stops_witness :
  run Fixtures.loads Fixtures.repr Cases.bad_manifest_world
    = ([EvOpen "package.json"; EvRead "package.json"], inl JSONDecodeError).
Proof.
  apply (invalid_manifest_stops Fixtures.loads Fixtures.repr
           Cases.bad_manifest_world "version 1.2.3");
    [exists "key"; reflexivity | exists "secret"; reflexivity
    | reflexivity | reflexivity].
Defined.

Lemma non_object_manifest_stops_witness :
  run Cases.loads Fixtures.repr Cases.list_manifest_world
    = ([EvOpen "package.json"; EvRead "package.json"], inl TypeError).
Proof.
  apply (non_object_manifest_stops Cases.loads Fixtures.repr
           Cases.list_manifest_world "[]" (JArr []));
    [exists "key"; reflexivity | exists "secret"; reflexivity
    | reflexivity | reflexivity | discriminate].
Defined.

Lemma first_missing_artifact_stops_witness :
  run Fixtures.loads Fixtures.repr Cases.no_css_world
    = ([EvOpen "package.json"; EvRead "package.json";
        EvOpen "dist/cactus.js"; EvOpen "dist/cactus.js.map"],
       inl (FileNotFoundError "dist/style.css")).
Proof.
  apply (first_missing_artifact_stops Fixtures.loads Fixtures.repr
           Cases.no_css_world Fixtures.manifest_text
           [("version", JStr "1.2.3")] (JStr "1.2.3")
           ["dist/cactus.js"; "dist/cactus.js.map"] ["dist/style.js.map"]
           "dist/style.css");
    try reflexivity.
  - exists "key"; reflexivity.
  - exists "secret"; reflexivity.
  - intros q [<-|[<-|[]]]; eexists; reflexivity.
Defined.

Lemma transport_error_propagates_witness :
  outcome Fixtures.loads Fixtures.repr Cases.offline_world
    = inl (RequestException "connection refused") /\
  printed (trace Fixtures.loads Fixtures.repr Cases.offline_world)
    = ["Uploading 1.2.3: 4 files..."] /\
  posts (trace Fixtures.loads Fixtures.repr Cases.offline_world) = [Runs.sent].
Proof.
  apply (transport_error_propagates Fixtures.loads Fixtures.repr
           Cases.offline_world "key" "secret" (JStr "1.2.3")
           (Readable "js") (Readable "jsmap") (Readable "css")
           (Readable "cssmap") (RequestException "connection refused")
           offline_world_ready).
  reflexivity.
Defined.

Lemma request_for_any_version_witness :
  exists req,
    posts (trace Cases.loads Fixtures.repr Cases.numbered_world) = [req] /\
    part_signature req =
      [ ("7/cactus.js", "text/javascript");
        ("7/cactus.js.map", "application/json");
        ("7/style.css", "text/css");
        ("7/style.css.map", "application/json") ] /\
    map (fun p => h_path (part_file (snd p))) (req_files req)
      = artifact_paths.
Proof.
  destruct (request_for_any_version Cases.loads Fixtures.repr
              Cases.numbered_world "key" "secret" (JInt 7)
              (Readable "js") (Readable "jsmap") (Readable "css")
              (Readable "cssmap") numbered_world_ready)
    as (req & Hp & Hs & Hpaths & _).
  exists req. auto.
Defined.

Lemma console_output_witness :
  printed (trace Fixtures.loads Fixtures.repr Fixtures.ok_world)
    = ["Uploading 1.2.3: 4 files..."; "Success!"; "{'IpfsHash': 'Qm'}"].
Proof.
  rewrite (console_output Fixtures.loads Fixtures.repr Fixtures.ok_world
             "key" "secret" (JStr "1.2.3")
             (Readable "js") (Readable "jsmap") (Readable "css")
             (Readable "cssmap") ok_world_ready).
  reflexivity.
Defined.

Lemma exit_zero_iff_witness :
  exit_status (outcome Fixtures.loads Fixtures.repr Fixtures.ok_world) = 0%Z.
Proof.
  apply (proj2 (exit_zero_iff Fixtures.loads Fixtures.repr Fixtures.ok_world)).
  exists "key", "secret", (JStr "1.2.3"),
    (Readable "js"), (Readable "jsmap"), (Readable "css"), (Readable "cssmap"),
    (mkResponse 200 Fixtures.reply_text), (JObj [("IpfsHash", JStr "Qm")]).
  split; [exact ok_world_ready|]. split; reflexivity.
Defined.


Lemma output_means_request_sent_witness :
  opened (trace Fixtures.loads Fixtures.repr Fixtures.ok_world)
    = "package.json" :: artifact_paths /\
  exists req, posts (trace Fixtures.loads Fixtures.repr Fixtures.ok_world) = [req].
Proof.
  apply (output_means_request_sent Fixtures.loads Fixtures.repr
           Fixtures.ok_world "Success!").
  vm_compute. tauto.
Defined.
